(** * assault/stats.py : the [Results] statistics class

    A shallow embedding of [src/assault/stats.py] and the properties of its
    seven queries.

    Number model.  Python's [float] values ([total_time], [request_time])
    are embedded as exact rationals in canonical form ([Qc]): comparison,
    [round] and the test for a zero divisor are exact on them, so they are
    embedded as they are; [+] and [/] are embedded as the exact operations.
    Binary64 rounding error, overflow to infinity and NaN lie outside the
    model.  A request, a [dict] read only at its two keys ['status_code'] and
    ['request_time'], is embedded as a record with these two fields.

    Python calls either return a value or raise; every query is embedded in
    the [result] monad below, whose [Raise] carries the exception class. *)

From Stdlib Require Import ZArith List Bool Lia Lqa.
From Stdlib Require Import QArith Qcanon Qround Qabs.
From Stdlib Require Import Sorting.Permutation Sorting.Sorted.
Import ListNotations.

Set Implicit Arguments.

(** ** Exceptions and results *)

Inductive exn : Set :=
| IndexError          (* list index out of range *)
| StatisticsError     (* statistics.mean on no data *)
| ZeroDivisionError.  (* float division by zero *)

Inductive result (A : Type) : Type :=
| Return (a : A)
| Raise (e : exn).

Arguments Return {A} a.
Arguments Raise {A} e.

Definition bind {A B : Type} (m : result A) (k : A -> result B) : result B :=
  match m with
  | Return a => k a
  | Raise e => Raise e
  end.

Notation "x <- m ;; k" := (bind m (fun x => k))
  (at level 61, m at next level, right associativity).

(** [raises m]: the call [m] does not return a value. *)
Definition raises {A : Type} (m : result A) : Prop := exists e, m = Raise e.

(** [returns m]: the call [m] returns normally. *)
Definition returns {A : Type} (m : result A) : Prop := exists a, m = Return a.

(** ** The Python built-ins the class uses *)

Module Py.

(** [int] to [float]. *)
Definition of_int (z : Z) : Qc := Q2Qc (inject_Z z).

(** [x < y] on floats, the only comparison [sorted] makes. *)
Definition ltb (x y : Qc) : bool :=
  match (x ?= y)%Qc with Lt => true | _ => false end.

(** [l[i]] : a negative index counts from the end; out of range raises. *)
Definition getitem {A : Type} (l : list A) (i : Z) : result A :=
  let n := Z.of_nat (length l) in
  let j := if (i <? 0)%Z then (i + n)%Z else i in
  if ((j <? 0) || (n <=? j))%Z then Raise IndexError
  else match nth_error l (Z.to_nat j) with
       | Some a => Return a
       | None => Raise IndexError
       end.

Section Sorted.
Variable A : Type.
Variable key : A -> Qc.

(** Insertion of [x] in front of the first element whose key is not
    smaller: [x], which comes earlier in the input, stays ahead of its
    equals. *)
Fixpoint insert (x : A) (l : list A) : list A :=
  match l with
  | [] => [x]
  | y :: l' => if ltb (key y) (key x) then y :: insert x l'
               else x :: y :: l'
  end.

(** [sorted(l, key=key)] : a new list, ascending by key, stable. *)
Fixpoint sorted (l : list A) : list A :=
  match l with
  | [] => []
  | x :: l' => insert x (sorted l')
  end.
End Sorted.

(** [sum(xs)] : starts from [0] and adds from the left. *)
Definition sum (xs : list Qc) : Qc := fold_left Qcplus xs 0%Qc.

(** [statistics.mean(xs)] : raises on no data, else the exact sum over
    the count. *)
Definition mean (xs : list Qc) : result Qc :=
  match xs with
  | [] => Raise StatisticsError
  | _ :: _ => Return (fold_left Qcplus xs 0 / of_int (Z.of_nat (length xs)))%Qc
  end.

(** [x in range(start, stop)] for an integer [x]. *)
Definition in_range (start stop x : Z) : bool :=
  ((start <=? x) && (x <? stop))%Z.

(** [a / b] with a float divisor. *)
Definition truediv (a b : Qc) : result Qc :=
  if Qc_eq_bool b 0%Qc then Raise ZeroDivisionError
  else Return (a / b)%Qc.

(** [round(x)] with no [ndigits] : the nearest integer, a tie going to the
    even one. *)
Definition round (x : Qc) : Z :=
  let f := Qfloor x in
  match ((x - inject_Z f) ?= 1 # 2)%Q with
  | Lt => f
  | Gt => (f + 1)%Z
  | Eq => if Z.even f then f else (f + 1)%Z
  end.

End Py.

(** ** The class [Results] *)

Record request : Set := mkRequest {
  status_code : Z;
  request_time : Qc
}.

Record Results : Set := mkResults {
  total_time : Qc;
  requests : list request
}.

(** [Results.__init__] *)
Definition Results_init (total_time : Qc) (requests : list request) : Results :=
  {| total_time := total_time;
     requests := Py.sorted request_time requests |}.

Definition slowest (self : Results) : result Qc :=
  r <- Py.getitem (requests self) (-1) ;;
  Return (request_time r).

Definition fastest (self : Results) : result Qc :=
  r <- Py.getitem (requests self) 0 ;;
  Return (request_time r).

Definition average_time (self : Results) : result Qc :=
  Py.mean (map request_time (requests self)).

Definition requests_total_time (self : Results) : result Qc :=
  Return (Py.sum (map request_time (requests self))).

Definition successful_requests (self : Results) : result Z :=
  Return (Z.of_nat (length
    (filter (fun r => Py.in_range 200 299 (status_code r)) (requests self)))).

Definition requests_per_minute (self : Results) : result Z :=
  q <- Py.truediv (Py.of_int (60 * Z.of_nat (length (requests self))))
                  (total_time self) ;;
  Return (Py.round q).

Definition requests_per_second (self : Results) : result Z :=
  q <- Py.truediv (Py.of_int (Z.of_nat (length (requests self))))
                  (total_time self) ;;
  Return (Py.round q).

(** ** Vocabulary of the properties *)

(** Ascending order of the keys, as [sorted] establishes it. *)
Definition key_le {A : Type} (key : A -> Qc) (a b : A) : Prop :=
  (key a <= key b)%Qc.

Definition ascending {A : Type} (key : A -> Qc) (l : list A) : Prop :=
  StronglySorted (key_le key) l.

(** [m] is the largest (resp. smallest) request time among [rs]. *)
Definition is_max_time (rs : list request) (m : Qc) : Prop :=
  In m (map request_time rs) /\ Forall (fun r => request_time r <= m)%Qc rs.

Definition is_min_time (rs : list request) (m : Qc) : Prop :=
  In m (map request_time rs) /\ Forall (fun r => m <= request_time r)%Qc rs.

(** The sum of the request times of [rs], taken in the order given. *)
Fixpoint total_latency (rs : list request) : Qc :=
  match rs with
  | [] => 0%Qc
  | r :: rs' => (request_time r + total_latency rs')%Qc
  end.

(** The arithmetic mean of the request times of [rs]: sum over count. *)
Definition mean_latency (rs : list request) : Qc :=
  (total_latency rs / Py.of_int (Z.of_nat (length rs)))%Qc.

(** The number of outcomes of [rs] whose status code is in [[lo, hi]],
    both ends included. *)
Fixpoint count_status (lo hi : Z) (rs : list request) : Z :=
  match rs with
  | [] => 0%Z
  | r :: rs' =>
      ((if (lo <=? status_code r) && (status_code r <=? hi) then 1 else 0)
       + count_status lo hi rs')%Z
  end.


(** The rates as the specification writes them, before rounding. *)
Definition per_minute_rate (n : nat) (t : Qc) : Qc :=
  (Py.of_int (60 * Z.of_nat n) / t)%Qc.

Definition per_second_rate (n : nat) (t : Qc) : Qc :=
  (Py.of_int (Z.of_nat n) / t)%Qc.

(** ** Vocabulary of the further properties *)

(** The request [r] took exactly [k]. *)
Definition has_time (k : Qc) (r : request) : bool :=
  Qc_eq_bool (request_time r) k.

(** The larger and the smaller of two times, by the comparison [sorted]
    uses. *)
Definition larger (a b : Qc) : Qc := if Py.ltb a b then b else a.

Definition smaller (a b : Qc) : Qc := if Py.ltb b a then b else a.

(** ** The docstring examples *)

Definition dec (n : Z) (d : positive) : Qc := Q2Qc (n # d).

Definition doc_requests : list request :=
  [ mkRequest 200 (dec 34 10); mkRequest 500 (dec 61 10);
    mkRequest 200 (dec 104 100) ].

Definition doc_results : Results := Results_init (dec 106 10) doc_requests.

Example doc_slowest : slowest doc_results = Return (dec 61 10).
Proof. reflexivity. Qed.

Example doc_fastest : fastest doc_results = Return (dec 104 100).
Proof. reflexivity. Qed.

Example doc_average_time : average_time doc_results = Return (dec 527 150).
Proof. cbn. apply f_equal, Qc_is_canon. reflexivity. Qed.

Example doc_requests_total_time :
  requests_total_time doc_results = Return (dec 1054 100).
Proof. unfold requests_total_time. apply f_equal, Qc_is_canon. reflexivity. Qed.

Example doc_successful_requests : successful_requests doc_results = Return 2%Z.
Proof. reflexivity. Qed.

Example doc_requests_per_minute : requests_per_minute doc_results = Return 17%Z.
Proof. vm_compute. reflexivity. Qed.

Example doc_requests_per_second :
  requests_per_second
    (Results_init (dec 35 10) (mkRequest 200 (dec 4 10) :: doc_requests))
  = Return 1%Z.
Proof. vm_compute. reflexivity. Qed.

(** [round] on ties and around them, as Python answers. *)
Example round_ties :
  map Py.round [dec 5 10; dec 15 10; dec 25 10; dec (-5) 10; dec (-15) 10]
  = [0; 2; 2; 0; -2]%Z.
Proof. reflexivity. Qed.

Example round_nearest :
  map Py.round [dec 24 10; dec 26 10; dec (-24) 10; dec (-26) 10; dec 3 1]
  = [2; 3; -2; -3; 3]%Z.
Proof. reflexivity. Qed.

(** Equal keys keep the order of the input. *)
Example sorted_stable :
  map status_code
    (Py.sorted request_time
       [mkRequest 1 (dec 2 1); mkRequest 2 (dec 1 1); mkRequest 3 (dec 2 1);
        mkRequest 4 (dec 1 1)])
  = [2; 4; 1; 3]%Z.
Proof. reflexivity. Qed.

(** ** [sorted] : a stable ascending rearrangement *)

Lemma ltb_lt (x y : Qc) : Py.ltb x y = true <-> (x < y)%Qc.
Proof.
  unfold Py.ltb. rewrite Qclt_alt.
  destruct (x ?= y)%Qc; split; congruence.
Qed.

Lemma ltb_ge (x y : Qc) : Py.ltb x y = false <-> (y <= x)%Qc.
Proof.
  split; intro H.
  - apply Qcnot_lt_le. intro L. apply ltb_lt in L. congruence.
  - destruct (Py.ltb x y) eqn:E; trivial.
    apply ltb_lt in E. exfalso. exact (Qclt_not_le _ _ E H).
Qed.

Section SortedFacts.
Variable A : Type.
Variable key : A -> Qc.

Lemma insert_perm (x : A) (l : list A) :
  Permutation (Py.insert key x l) (x :: l).
Proof.
  induction l as [|y l IH]; simpl; [reflexivity|].
  destruct (Py.ltb (key y) (key x)); [|reflexivity].
  rewrite IH. apply perm_swap.
Qed.

Lemma sorted_perm (l : list A) : Permutation (Py.sorted key l) l.
Proof.
  induction l as [|x l IH]; simpl; [constructor|].
  rewrite insert_perm. now constructor.
Qed.

Lemma insert_ascending (x : A) (l : list A) :
  ascending key l -> ascending key (Py.insert key x l).
Proof.
  unfold ascending. induction 1 as [|y l Hs IH Hy]; simpl.
  - repeat constructor.
  - destruct (Py.ltb (key y) (key x)) eqn:E.
    + apply ltb_lt in E. constructor; [exact IH|].
      apply (Permutation_Forall (Permutation_sym (insert_perm x l))).
      constructor; [exact (Qclt_le_weak _ _ E) | exact Hy].
    + apply ltb_ge in E. constructor; [now constructor|].
      constructor; [exact E|].
      eapply Forall_impl; [|exact Hy].
      intros a Ha. exact (Qcle_trans _ _ _ E Ha).
Qed.

Lemma sorted_ascending (l : list A) : ascending key (Py.sorted key l).
Proof.
  induction l as [|x l IH]; simpl; [constructor|].
  now apply insert_ascending.
Qed.

Lemma ascending_map (l : list A) :
  ascending key l -> StronglySorted Qcle (map key l).
Proof.
  induction 1 as [|y l Hs IH Hy]; simpl; constructor; trivial.
  rewrite Forall_map. exact Hy.
Qed.

Lemma sorted_length (l : list A) : length (Py.sorted key l) = length l.
Proof. apply Permutation_length, sorted_perm. Qed.
End SortedFacts.

(** Two ascending lists of numbers with the same elements are the same
    list. *)
Lemma ascending_unique (l1 l2 : list Qc) :
  StronglySorted Qcle l1 -> StronglySorted Qcle l2 ->
  Permutation l1 l2 -> l1 = l2.
Proof.
  revert l2. induction l1 as [|a l1 IH]; intros l2 S1 S2 P.
  - now apply Permutation_nil in P.
  - destruct l2 as [|b l2].
    { apply Permutation_sym, Permutation_nil in P. discriminate. }
    apply StronglySorted_inv in S1. destruct S1 as [S1 F1].
    apply StronglySorted_inv in S2. destruct S2 as [S2 F2].
    rewrite Forall_forall in F1, F2.
    assert (E : a = b).
    { apply Qcle_antisym.
      - assert (I : In b (a :: l1))
          by (apply (Permutation_in _ (Permutation_sym P)); now left).
        destruct I as [->|I]; [apply Qcle_refl | now apply F1].
      - assert (I : In a (b :: l2))
          by (apply (Permutation_in _ P); now left).
        destruct I as [->|I]; [apply Qcle_refl | now apply F2]. }
    subst b. f_equal. apply IH; trivial.
    now apply Permutation_cons_inv in P.
Qed.

(** The sequence of keys [sorted] yields depends on the multiset of its
    input alone. *)
Lemma sorted_keys_perm {A : Type} (key : A -> Qc) (l1 l2 : list A) :
  Permutation l1 l2 ->
  map key (Py.sorted key l1) = map key (Py.sorted key l2).
Proof.
  intro P. apply ascending_unique.
  - apply ascending_map, sorted_ascending.
  - apply ascending_map, sorted_ascending.
  - apply Permutation_map.
    rewrite (sorted_perm key l1), (sorted_perm key l2). exact P.
Qed.

(** ** Indexing *)

Lemma getitem_nil {A : Type} (i : Z) : Py.getitem (@nil A) i = Raise IndexError.
Proof.
  unfold Py.getitem. simpl.
  destruct (i <? 0)%Z eqn:E.
  - rewrite Z.add_0_r, E. reflexivity.
  - destruct (0 <=? i)%Z eqn:E'; [now rewrite orb_true_r|].
    apply Z.ltb_ge in E. apply Z.leb_gt in E'. lia.
Qed.

Lemma getitem_first {A : Type} (a : A) (l : list A) :
  Py.getitem (a :: l) 0 = Return a.
Proof. reflexivity. Qed.

Lemma getitem_last {A : Type} (l : list A) (a : A) :
  Py.getitem (l ++ [a]) (-1) = Return a.
Proof.
  unfold Py.getitem. rewrite length_app, Nat.add_comm. cbn [length Nat.add].
  change (-1 <? 0)%Z with true. cbv iota.
  replace (-1 + Z.of_nat (S (length l)))%Z with (Z.of_nat (length l)) by lia.
  destruct (Z.of_nat (length l) <? 0)%Z eqn:E1; [apply Z.ltb_lt in E1; lia|].
  destruct (Z.of_nat (S (length l)) <=? Z.of_nat (length l))%Z eqn:E2;
    [apply Z.leb_le in E2; lia|].
  simpl. rewrite Nat2Z.id, nth_error_app2, Nat.sub_diag by lia.
  reflexivity.
Qed.

Lemma getitem_map {A B : Type} (f : A -> B) (l : list A) (i : Z) :
  Py.getitem (map f l) i = (a <- Py.getitem l i ;; Return (f a)).
Proof.
  unfold Py.getitem. rewrite length_map, nth_error_map.
  destruct (_ || _); [reflexivity|].
  destruct (nth_error l _); reflexivity.
Qed.

(** ** Ends of an ascending list *)

Lemma ascending_head {A : Type} (key : A -> Qc) (a : A) (l : list A) :
  ascending key (a :: l) -> Forall (fun b => key a <= key b)%Qc (a :: l).
Proof.
  intro S. apply StronglySorted_inv in S. destruct S as [_ F].
  constructor; [apply Qcle_refl | exact F].
Qed.

Lemma ascending_last {A : Type} (key : A -> Qc) (l : list A) (a : A) :
  ascending key (l ++ [a]) -> Forall (fun b => key b <= key a)%Qc (l ++ [a]).
Proof.
  induction l as [|b l IH]; simpl; intro S.
  - repeat constructor. apply Qcle_refl.
  - apply StronglySorted_inv in S. destruct S as [S F].
    constructor; [|exact (IH S)].
    rewrite Forall_forall in F. apply F, in_or_app. right. now left.
Qed.

(** ** Sums *)

Lemma fold_left_plus (xs : list Qc) (a : Qc) :
  fold_left Qcplus xs a = (a + fold_left Qcplus xs 0)%Qc.
Proof.
  revert a. induction xs as [|x xs IH]; intro a; simpl.
  - now rewrite Qcplus_0_r.
  - rewrite (IH (a + x)%Qc), (IH (0 + x)%Qc), Qcplus_0_l.
    now rewrite Qcplus_assoc.
Qed.

Lemma sum_times (rs : list request) :
  Py.sum (map request_time rs) = total_latency rs.
Proof.
  unfold Py.sum. induction rs as [|r rs IH]; simpl; [reflexivity|].
  now rewrite fold_left_plus, Qcplus_0_l, IH.
Qed.

Lemma total_latency_perm (l1 l2 : list request) :
  Permutation l1 l2 -> total_latency l1 = total_latency l2.
Proof.
  induction 1 as [| x l l' _ IH | x y l | l l' l'' _ IH1 _ IH2]; simpl.
  - reflexivity.
  - now rewrite IH.
  - rewrite !Qcplus_assoc. f_equal. apply Qcplus_comm.
  - now rewrite IH1.
Qed.

(** ** Counting status codes *)

Lemma in_range_closed (x : Z) :
  Py.in_range 200 299 x = ((200 <=? x) && (x <=? 298))%Z.
Proof.
  unfold Py.in_range. f_equal.
  destruct (x <? 299)%Z eqn:E1, (x <=? 298)%Z eqn:E2; trivial;
    rewrite ?Z.ltb_lt, ?Z.ltb_ge, ?Z.leb_le, ?Z.leb_gt in *; lia.
Qed.

Lemma filter_count (l : list request) :
  Z.of_nat (length (filter (fun r => Py.in_range 200 299 (status_code r)) l))
  = count_status 200 298 l.
Proof.
  induction l as [|r l IH]; [reflexivity|].
  cbn [filter count_status]. rewrite in_range_closed, <- IH.
  destruct (_ && _); cbn [length]; lia.
Qed.

Lemma count_status_perm (lo hi : Z) (l1 l2 : list request) :
  Permutation l1 l2 -> count_status lo hi l1 = count_status lo hi l2.
Proof.
  induction 1 as [| x l l' _ IH | x y l | l l' l'' _ IH1 _ IH2]; simpl;
    try lia.
Qed.

Lemma successful_requests_count (t : Qc) (rs : list request) :
  successful_requests (Results_init t rs) = Return (count_status 200 298 rs).
Proof.
  unfold successful_requests, Results_init. cbn [requests].
  rewrite filter_count.
  now rewrite (count_status_perm 200 298 (sorted_perm request_time rs)).
Qed.

(** ** The stored sequence and its two ends *)

Lemma init_requests_perm (t : Qc) (rs : list request) :
  Permutation (requests (Results_init t rs)) rs.
Proof. apply sorted_perm. Qed.

Lemma init_requests_ascending (t : Qc) (rs : list request) :
  ascending request_time (requests (Results_init t rs)).
Proof. apply sorted_ascending. Qed.

Lemma init_requests_nonempty (t : Qc) (rs : list request) :
  rs <> [] -> requests (Results_init t rs) <> [].
Proof.
  intros N E. apply N, length_zero_iff_nil.
  rewrite <- (sorted_length request_time rs).
  change (Py.sorted request_time rs) with (requests (Results_init t rs)).
  now rewrite E.
Qed.

Lemma fastest_min (t : Qc) (rs : list request) :
  rs <> [] ->
  exists r l, requests (Results_init t rs) = r :: l /\
              fastest (Results_init t rs) = Return (request_time r) /\
              is_min_time rs (request_time r).
Proof.
  intro N. pose proof (init_requests_nonempty t N) as N'.
  pose proof (init_requests_perm t rs) as P.
  pose proof (init_requests_ascending t rs) as S.
  destruct (requests (Results_init t rs)) as [|r l] eqn:E; [congruence|].
  exists r, l. split; [reflexivity|]. split.
  - unfold fastest. rewrite E. reflexivity.
  - split.
    + apply in_map, (Permutation_in _ P). now left.
    + exact (Permutation_Forall P (ascending_head S)).
Qed.

Lemma slowest_max (t : Qc) (rs : list request) :
  rs <> [] ->
  exists l r, requests (Results_init t rs) = l ++ [r] /\
              slowest (Results_init t rs) = Return (request_time r) /\
              is_max_time rs (request_time r).
Proof.
  intro N. pose proof (init_requests_nonempty t N) as N'.
  pose proof (init_requests_perm t rs) as P.
  pose proof (init_requests_ascending t rs) as S.
  destruct (exists_last N') as [l [r E]].
  exists l, r. split; [exact E|]. split.
  - unfold slowest. rewrite E, getitem_last. reflexivity.
  - rewrite E in P, S. split.
    + apply in_map, (Permutation_in _ P), in_or_app. right. now left.
    + exact (Permutation_Forall P (ascending_last _ _ S)).
Qed.

(** ** Mean and total *)

(** The rational under a canonical one, through each operation used. *)
Lemma this_of_int (z : Z) : (Py.of_int z : Q) == inject_Z z.
Proof. apply Qred_correct. Qed.

Lemma this_plus (x y : Qc) : ((x + y)%Qc : Q) == (x : Q) + (y : Q).
Proof. apply Qred_correct. Qed.


Lemma of_int_add (a b : Z) :
  Py.of_int (a + b) = (Py.of_int a + Py.of_int b)%Qc.
Proof.
  apply Qc_is_canon.
  rewrite this_plus, !this_of_int, inject_Z_plus. reflexivity.
Qed.

Lemma of_int_count_succ (n : nat) :
  Py.of_int (Z.of_nat (S n)) = (1 + Py.of_int (Z.of_nat n))%Qc.
Proof.
  rewrite Nat2Z.inj_succ, <- Z.add_1_l, of_int_add. reflexivity.
Qed.

Lemma of_int_count_pos (n : nat) : (0 < Py.of_int (Z.of_nat (S n)))%Qc.
Proof.
  unfold Qclt. rewrite this_of_int. change (this 0%Qc) with 0%Q.
  unfold Qlt. simpl. lia.
Qed.

Lemma Qcdiv_mult_cancel (x n : Qc) : n <> 0%Qc -> (x / n * n)%Qc = x.
Proof.
  intro N. unfold Qcdiv.
  now rewrite <- Qcmult_assoc, Qcmult_inv_l, Qcmult_1_r.
Qed.

Lemma Qcle_div_r (m x n : Qc) :
  (0 < n)%Qc -> (n * m <= x)%Qc -> (m <= x / n)%Qc.
Proof.
  intros Hn H. apply (Qcmult_lt_0_le_reg_r _ _ n Hn).
  rewrite Qcdiv_mult_cancel by (intro E; subst n; discriminate Hn).
  now rewrite Qcmult_comm.
Qed.

Lemma Qcle_div_l (m x n : Qc) :
  (0 < n)%Qc -> (x <= n * m)%Qc -> (x / n <= m)%Qc.
Proof.
  intros Hn H. apply (Qcmult_lt_0_le_reg_r _ _ n Hn).
  rewrite Qcdiv_mult_cancel by (intro E; subst n; discriminate Hn).
  now rewrite Qcmult_comm.
Qed.

Lemma total_latency_lower (m : Qc) (rs : list request) :
  Forall (fun r => m <= request_time r)%Qc rs ->
  (Py.of_int (Z.of_nat (length rs)) * m <= total_latency rs)%Qc.
Proof.
  induction 1 as [|r rs Hr _ IH].
  - simpl. rewrite Qcmult_0_l. apply Qcle_refl.
  - cbn [length total_latency].
    rewrite of_int_count_succ, Qcmult_plus_distr_l, Qcmult_1_l.
    now apply Qcplus_le_compat.
Qed.

Lemma total_latency_upper (m : Qc) (rs : list request) :
  Forall (fun r => request_time r <= m)%Qc rs ->
  (total_latency rs <= Py.of_int (Z.of_nat (length rs)) * m)%Qc.
Proof.
  induction 1 as [|r rs Hr _ IH].
  - simpl. rewrite Qcmult_0_l. apply Qcle_refl.
  - cbn [length total_latency].
    rewrite of_int_count_succ, Qcmult_plus_distr_l, Qcmult_1_l.
    now apply Qcplus_le_compat.
Qed.

Lemma mean_latency_bounds (rs : list request) (lo hi : Qc) :
  rs <> [] -> is_min_time rs lo -> is_max_time rs hi ->
  (lo <= mean_latency rs <= hi)%Qc.
Proof.
  intros N [_ Hlo] [_ Hhi]. unfold mean_latency.
  destruct rs as [|r rs]; [congruence|].
  split.
  - apply Qcle_div_r; [apply of_int_count_pos|].
    now apply total_latency_lower.
  - apply Qcle_div_l; [apply of_int_count_pos|].
    now apply total_latency_upper.
Qed.

Lemma requests_total_time_sum (t : Qc) (rs : list request) :
  requests_total_time (Results_init t rs) = Return (total_latency rs).
Proof.
  unfold requests_total_time. rewrite sum_times.
  now rewrite (total_latency_perm (init_requests_perm t rs)).
Qed.

Lemma mean_nonempty (xs : list Qc) :
  xs <> [] ->
  Py.mean xs = Return (Py.sum xs / Py.of_int (Z.of_nat (length xs)))%Qc.
Proof. destruct xs; [congruence | reflexivity]. Qed.

Lemma average_time_mean (t : Qc) (rs : list request) :
  rs <> [] -> average_time (Results_init t rs) = Return (mean_latency rs).
Proof.
  intro N. pose proof (init_requests_nonempty t N) as N'.
  unfold average_time, mean_latency.
  rewrite mean_nonempty by (intro E; apply map_eq_nil in E; contradiction).
  rewrite length_map, sum_times.
  rewrite (total_latency_perm (init_requests_perm t rs)).
  unfold Results_init. cbn [requests].
  now rewrite sorted_length.
Qed.

(** ** Rounding half to even *)









(** ** The two rates *)

Lemma truediv_zero (a : Qc) : Py.truediv a 0%Qc = Raise ZeroDivisionError.
Proof. reflexivity. Qed.

Lemma truediv_nonzero (a b : Qc) :
  b <> 0%Qc -> Py.truediv a b = Return (a / b)%Qc.
Proof.
  intro N. unfold Py.truediv, Qc_eq_bool.
  destruct (Qc_eq_dec b 0); [contradiction | reflexivity].
Qed.

Lemma init_length (t : Qc) (rs : list request) :
  length (requests (Results_init t rs)) = length rs.
Proof. apply sorted_length. Qed.

Lemma rates_zero (rs : list request) :
  requests_per_minute (Results_init 0%Qc rs) = Raise ZeroDivisionError /\
  requests_per_second (Results_init 0%Qc rs) = Raise ZeroDivisionError.
Proof. split; reflexivity. Qed.

Lemma rates_nonzero (t : Qc) (rs : list request) :
  t <> 0%Qc ->
  requests_per_minute (Results_init t rs)
    = Return (Py.round (per_minute_rate (length rs) t)) /\
  requests_per_second (Results_init t rs)
    = Return (Py.round (per_second_rate (length rs) t)).
Proof.
  intro N. unfold requests_per_minute, requests_per_second.
  rewrite init_length. change (total_time (Results_init t rs)) with t.
  rewrite !truediv_nonzero by exact N. split; reflexivity.
Qed.



(** ** What every query reads of the stored sequence *)

Lemma slowest_times (R : Results) :
  slowest R = Py.getitem (map request_time (requests R)) (-1).
Proof. unfold slowest. now rewrite getitem_map. Qed.

Lemma fastest_times (R : Results) :
  fastest R = Py.getitem (map request_time (requests R)) 0.
Proof. unfold fastest. now rewrite getitem_map. Qed.

Lemma init_times_perm (t : Qc) (rs1 rs2 : list request) :
  Permutation rs1 rs2 ->
  map request_time (requests (Results_init t rs1))
  = map request_time (requests (Results_init t rs2)).
Proof. apply sorted_keys_perm. Qed.

(** ** Properties of the queries *)

(** C1 (as amended).  On a [Results] built from an empty list of requests,
    [slowest()] and [fastest()] raise [IndexError] and [average_time()]
    raises [StatisticsError]; [requests_total_time()] is not among the
    queries that fail there: it returns. *)
Theorem empty_queries_raise (t : Qc) :
  slowest (Results_init t []) = Raise IndexError /\
  fastest (Results_init t []) = Raise IndexError /\
  average_time (Results_init t []) = Raise StatisticsError /\
  returns (requests_total_time (Results_init t [])).
Proof.
  repeat split; try reflexivity.
  exists 0%Qc. reflexivity.
Qed.

(** C1 as stated does not hold: with no requests and [total_time = 10.0],
    the four queries do not all raise, since [requests_total_time()]
    returns. *)
Lemma empty_queries_not_all_raise :
  ~ (raises (slowest (Results_init (dec 10 1) [])) /\
     raises (fastest (Results_init (dec 10 1) [])) /\
     raises (average_time (Results_init (dec 10 1) [])) /\
     raises (requests_total_time (Results_init (dec 10 1) []))).
Proof.
  intros (_ & _ & _ & e & H). discriminate H.
Qed.

(** C2.  [successful_requests()] is the number of outcomes of the input
    whose status code lies in [[200, 298]], both ends included: adding an
    outcome with status 299 leaves the count as it is, adding one with
    status 200 or 298 raises it by one. *)
Theorem successful_requests_range (t : Qc) (rs : list request) :
  successful_requests (Results_init t rs) = Return (count_status 200 298 rs) /\
  (forall x, successful_requests (Results_init t (mkRequest 299 x :: rs))
             = Return (count_status 200 298 rs)) /\
  (forall x, successful_requests (Results_init t (mkRequest 200 x :: rs))
             = Return (count_status 200 298 rs + 1)%Z) /\
  (forall x, successful_requests (Results_init t (mkRequest 298 x :: rs))
             = Return (count_status 200 298 rs + 1)%Z).
Proof.
  split; [apply successful_requests_count|].
  repeat split; intros; rewrite successful_requests_count;
    cbn [count_status status_code]; f_equal.
  - change ((200 <=? 200) && (200 <=? 298))%Z with true. cbv iota. lia.
  - change ((200 <=? 298) && (298 <=? 298))%Z with true. cbv iota. lia.
Qed.

(** C3 (as amended).  When [total_time] is zero, [requests_per_minute()]
    and [requests_per_second()] both raise [ZeroDivisionError], whatever
    the requests. *)
Theorem zero_total_time_raises (rs : list request) :
  requests_per_minute (Results_init 0%Qc rs) = Raise ZeroDivisionError /\
  requests_per_second (Results_init 0%Qc rs) = Raise ZeroDivisionError.
Proof. apply rates_zero. Qed.

(** C3 as stated does not hold: with [total_time = -2.0], which is at most
    zero, and one request, the two rates return [-30] and [0] (the tie
    [-0.5] goes to the even side) and neither raises. *)
Lemma negative_total_time_returns :
  (dec (-2) 1 <= 0)%Qc /\
  requests_per_minute (Results_init (dec (-2) 1) [mkRequest 200 (dec 1 1)])
    = Return (-30)%Z /\
  requests_per_second (Results_init (dec (-2) 1) [mkRequest 200 (dec 1 1)])
    = Return 0%Z /\
  ~ (raises (requests_per_minute
               (Results_init (dec (-2) 1) [mkRequest 200 (dec 1 1)])) /\
     raises (requests_per_second
               (Results_init (dec (-2) 1) [mkRequest 200 (dec 1 1)]))).
Proof.
  split; [discriminate|]. split; [reflexivity|]. split; [reflexivity|].
  intros [[e H] _]. discriminate H.
Qed.



(** C5.  For a non-empty list of requests the stored sequence is ascending
    by request time, [slowest()] returns the request time of its last
    element, which is the largest request time of the input, and
    [fastest()] returns that of its first element, the smallest. *)
Theorem slowest_fastest_extremes (t : Qc) (rs : list request) :
  rs <> [] ->
  ascending request_time (requests (Results_init t rs)) /\
  (exists l r, requests (Results_init t rs) = l ++ [r] /\
               slowest (Results_init t rs) = Return (request_time r) /\
               is_max_time rs (request_time r)) /\
  (exists r l, requests (Results_init t rs) = r :: l /\
               fastest (Results_init t rs) = Return (request_time r) /\
               is_min_time rs (request_time r)).
Proof.
  intro N. split; [apply init_requests_ascending|].
  split; [now apply slowest_max | now apply fastest_min].
Qed.

Lemma slowest_fastest_extremes_witness :
  doc_requests <> [] /\
  ascending request_time (requests doc_results) /\
  (exists l r, requests doc_results = l ++ [r] /\
               slowest doc_results = Return (request_time r) /\
               is_max_time doc_requests (request_time r)) /\
  (exists r l, requests doc_results = r :: l /\
               fastest doc_results = Return (request_time r) /\
               is_min_time doc_requests (request_time r)).
Proof.
  split; [discriminate|].
  apply (@slowest_fastest_extremes (dec 106 10) doc_requests).
  discriminate.
Defined.



(** C7.  For a non-empty list of requests the three queries return, and
    [fastest() <= average_time() <= slowest()]. *)
Theorem fastest_average_slowest (t : Qc) (rs : list request) :
  rs <> [] ->
  exists f a s : Qc,
    fastest (Results_init t rs) = Return f /\
    average_time (Results_init t rs) = Return a /\
    slowest (Results_init t rs) = Return s /\
    (f <= a <= s)%Qc.
Proof.
  intro N.
  destruct (fastest_min t N) as (rf & lf & _ & Ef & Hf).
  destruct (slowest_max t N) as (ls & rl & _ & Es & Hs).
  exists (request_time rf), (mean_latency rs), (request_time rl).
  split; [exact Ef|]. split; [now apply average_time_mean|].
  split; [exact Es|]. now apply mean_latency_bounds.
Qed.

Lemma fastest_average_slowest_witness :
  doc_requests <> [] /\
  exists f a s : Qc,
    fastest doc_results = Return f /\
    average_time doc_results = Return a /\
    slowest doc_results = Return s /\
    (f <= a <= s)%Qc.
Proof.
  split; [discriminate|].
  apply (@fastest_average_slowest (dec 106 10) doc_requests). discriminate.
Defined.

(** C8.  Two lists of requests that are permutations of one another give,
    with the same [total_time], the same answer to each of the seven
    queries. *)
Theorem queries_order_independent (t : Qc) (rs1 rs2 : list request) :
  Permutation rs1 rs2 ->
  slowest (Results_init t rs1) = slowest (Results_init t rs2) /\
  fastest (Results_init t rs1) = fastest (Results_init t rs2) /\
  average_time (Results_init t rs1) = average_time (Results_init t rs2) /\
  requests_total_time (Results_init t rs1)
    = requests_total_time (Results_init t rs2) /\
  successful_requests (Results_init t rs1)
    = successful_requests (Results_init t rs2) /\
  requests_per_minute (Results_init t rs1)
    = requests_per_minute (Results_init t rs2) /\
  requests_per_second (Results_init t rs1)
    = requests_per_second (Results_init t rs2).
Proof.
  intro P. pose proof (init_times_perm t P) as E.
  pose proof (Permutation_length P) as L.
  repeat split.
  - now rewrite !slowest_times, E.
  - now rewrite !fastest_times, E.
  - unfold average_time. now rewrite E.
  - unfold requests_total_time. now rewrite E.
  - rewrite !successful_requests_count.
    now rewrite (count_status_perm 200 298 P).
  - unfold requests_per_minute. now rewrite !init_length, L.
  - unfold requests_per_second. now rewrite !init_length, L.
Qed.

Lemma queries_order_independent_witness :
  Permutation doc_requests (rev doc_requests) /\
  slowest doc_results
    = slowest (Results_init (dec 106 10) (rev doc_requests)) /\
  fastest doc_results
    = fastest (Results_init (dec 106 10) (rev doc_requests)) /\
  average_time doc_results
    = average_time (Results_init (dec 106 10) (rev doc_requests)) /\
  requests_total_time doc_results
    = requests_total_time (Results_init (dec 106 10) (rev doc_requests)) /\
  successful_requests doc_results
    = successful_requests (Results_init (dec 106 10) (rev doc_requests)) /\
  requests_per_minute doc_results
    = requests_per_minute (Results_init (dec 106 10) (rev doc_requests)) /\
  requests_per_second doc_results
    = requests_per_second (Results_init (dec 106 10) (rev doc_requests)).
Proof.
  split; [apply Permutation_rev|].
  apply (@queries_order_independent (dec 106 10) doc_requests
           (rev doc_requests)).
  apply Permutation_rev.
Defined.

(** C9.  On a [Results] built from an empty list of requests,
    [requests_total_time()] returns [0], the sum of no terms, and does not
    raise. *)
Theorem empty_total_time_zero (t : Qc) :
  requests_total_time (Results_init t []) = Return 0%Qc /\
  ~ raises (requests_total_time (Results_init t [])).
Proof.
  split; [reflexivity|]. intros [e H]. discriminate H.
Qed.



(** ** Further properties of [__init__] *)

Lemma Qc_eq_bool_refl (x : Qc) : Qc_eq_bool x x = true.
Proof.
  unfold Qc_eq_bool. destruct (Qc_eq_dec x x); [reflexivity | congruence].
Qed.

Lemma insert_filter_key {A : Type} (key : A -> Qc) (k : Qc) (x : A)
      (l : list A) :
  filter (fun a => Qc_eq_bool (key a) k) (Py.insert key x l)
  = filter (fun a => Qc_eq_bool (key a) k) (x :: l).
Proof.
  induction l as [|y l IH]; [reflexivity|].
  cbn [Py.insert]. destruct (Py.ltb (key y) (key x)) eqn:E; [|reflexivity].
  apply ltb_lt in E. cbn [filter] in *. rewrite IH.
  destruct (Qc_eq_bool (key x) k) eqn:Ex; [|reflexivity].
  destruct (Qc_eq_bool (key y) k) eqn:Ey; [|reflexivity].
  apply Qc_eq_bool_correct in Ex, Ey. rewrite Ex, Ey in E.
  exfalso. exact (Qclt_not_eq _ _ E eq_refl).
Qed.

Lemma sorted_filter_key {A : Type} (key : A -> Qc) (k : Qc) (l : list A) :
  filter (fun a => Qc_eq_bool (key a) k) (Py.sorted key l)
  = filter (fun a => Qc_eq_bool (key a) k) l.
Proof.
  induction l as [|x l IH]; [reflexivity|].
  cbn [Py.sorted]. rewrite insert_filter_key. cbn [filter].
  now rewrite IH.
Qed.

Lemma sorted_ascending_id {A : Type} (key : A -> Qc) (l : list A) :
  ascending key l -> Py.sorted key l = l.
Proof.
  induction 1 as [|a l Hs IH Ha]; [reflexivity|].
  cbn [Py.sorted]. rewrite IH.
  destruct l as [|y l]; [reflexivity|].
  cbn [Py.insert]. apply Forall_inv in Ha.
  apply ltb_ge in Ha. now rewrite Ha.
Qed.

Lemma insert_map_key {A : Type} (key : A -> Qc) (x : A) (l : list A) :
  map key (Py.insert key x l) = Py.insert (fun q => q) (key x) (map key l).
Proof.
  induction l as [|y l IH]; [reflexivity|].
  cbn [Py.insert map]. destruct (Py.ltb (key y) (key x)); [|reflexivity].
  cbn [map]. now rewrite IH.
Qed.

Lemma sorted_map_key {A : Type} (key : A -> Qc) (l : list A) :
  map key (Py.sorted key l) = Py.sorted (fun q => q) (map key l).
Proof.
  induction l as [|x l IH]; [reflexivity|].
  cbn [Py.sorted map]. now rewrite insert_map_key, IH.
Qed.

(** X1.  [__init__] keeps [total_time] as given and stores the requests
    rearranged: the stored list has the same elements with the same
    multiplicities and the same length as the input, and is ascending by
    request time; this holds for every input, the empty one included. *)
Theorem init_stores_rearranged (t : Qc) (rs : list request) :
  total_time (Results_init t rs) = t /\
  Permutation (requests (Results_init t rs)) rs /\
  length (requests (Results_init t rs)) = length rs /\
  ascending request_time (requests (Results_init t rs)).
Proof.
  split; [reflexivity|]. split; [apply init_requests_perm|].
  split; [apply init_length | apply init_requests_ascending].
Qed.

(** X2.  The sort of [__init__] is stable: for every time [k], the requests
    that took exactly [k] appear in the stored list in the order they had in
    the input. *)
Theorem init_sort_stable (t : Qc) (rs : list request) (k : Qc) :
  filter (has_time k) (requests (Results_init t rs)) = filter (has_time k) rs.
Proof. apply (sorted_filter_key request_time). Qed.

(** X3.  An input that is already ascending by request time is stored as
    it is, order of equal times included; so building a [Results] from the
    list another [Results] stores changes nothing. *)
Theorem init_ascending_unchanged (t t' : Qc) (rs : list request) :
  ascending request_time rs ->
  requests (Results_init t rs) = rs /\
  requests (Results_init t' (requests (Results_init t rs)))
  = requests (Results_init t rs).
Proof.
  intro H. split; [now apply sorted_ascending_id|].
  apply (sorted_ascending_id (init_requests_ascending t rs)).
Qed.

Lemma init_ascending_unchanged_witness :
  ascending request_time
    [mkRequest 200 (dec 104 100); mkRequest 200 (dec 34 10);
     mkRequest 500 (dec 61 10)] /\
  requests (Results_init (dec 106 10)
              [mkRequest 200 (dec 104 100); mkRequest 200 (dec 34 10);
               mkRequest 500 (dec 61 10)])
  = [mkRequest 200 (dec 104 100); mkRequest 200 (dec 34 10);
     mkRequest 500 (dec 61 10)] /\
  requests (Results_init (dec 35 10)
              (requests (Results_init (dec 106 10)
                 [mkRequest 200 (dec 104 100); mkRequest 200 (dec 34 10);
                  mkRequest 500 (dec 61 10)])))
  = requests (Results_init (dec 106 10)
                [mkRequest 200 (dec 104 100); mkRequest 200 (dec 34 10);
                 mkRequest 500 (dec 61 10)]).
Proof.
  assert (H : ascending request_time
                [mkRequest 200 (dec 104 100); mkRequest 200 (dec 34 10);
                 mkRequest 500 (dec 61 10)]).
  { repeat constructor; discriminate. }
  split; [exact H|].
  apply (@init_ascending_unchanged (dec 106 10) (dec 35 10) _ H).
Defined.

(** ** Which queries raise, and when *)

Lemma not_raises_return {A : Type} (a : A) : ~ raises (Return a).
Proof. intros [e H]. discriminate H. Qed.

Lemma raises_raise {A : Type} (e : exn) : raises (@Raise A e).
Proof. now exists e. Qed.

(** X4.  [slowest()], [fastest()] and [average_time()] raise exactly when
    the list of requests is empty; [requests_total_time()] and
    [successful_requests()] never raise. *)
Theorem latency_queries_raise_iff_empty (t : Qc) (rs : list request) :
  (raises (slowest (Results_init t rs)) <-> rs = []) /\
  (raises (fastest (Results_init t rs)) <-> rs = []) /\
  (raises (average_time (Results_init t rs)) <-> rs = []) /\
  ~ raises (requests_total_time (Results_init t rs)) /\
  ~ raises (successful_requests (Results_init t rs)).
Proof.
  assert (D : rs = [] \/ rs <> []) by (destruct rs; [now left | now right]).
  repeat split; try (intros ->; apply raises_raise);
    try apply not_raises_return; intro R; destruct D as [E|N]; trivial;
    exfalso; revert R.
  - destruct (slowest_max t N) as (l & r & _ & -> & _).
    apply not_raises_return.
  - destruct (fastest_min t N) as (r & l & _ & -> & _).
    apply not_raises_return.
  - rewrite (average_time_mean t N). apply not_raises_return.
Qed.


(** ** Counting and merging *)

Lemma count_status_bounds (lo hi : Z) (rs : list request) :
  (0 <= count_status lo hi rs <= Z.of_nat (length rs))%Z.
Proof.
  induction rs as [|r rs IH]; [simpl; lia|].
  cbn [count_status length]. destruct (_ && _); lia.
Qed.

Lemma count_status_app (lo hi : Z) (l1 l2 : list request) :
  count_status lo hi (l1 ++ l2)
  = (count_status lo hi l1 + count_status lo hi l2)%Z.
Proof.
  induction l1 as [|r l1 IH]; [reflexivity|].
  cbn [app count_status]. rewrite IH. lia.
Qed.

(** X6.  [successful_requests()] returns a count that is at least zero and
    at most the number of requests. *)
Theorem successful_requests_bounds (t : Qc) (rs : list request) :
  exists k : Z,
    successful_requests (Results_init t rs) = Return k /\
    (0 <= k <= Z.of_nat (length rs))%Z.
Proof.
  exists (count_status 200 298 rs).
  split; [apply successful_requests_count | apply count_status_bounds].
Qed.

(** X7.  Over two batches put together, [successful_requests()] is the sum
    of the counts of the two batches, whatever the three [total_time]s. *)
Theorem merged_batches_count (t t1 t2 : Qc) (rs1 rs2 : list request) :
  exists k1 k2 : Z,
    successful_requests (Results_init t1 rs1) = Return k1 /\
    successful_requests (Results_init t2 rs2) = Return k2 /\
    successful_requests (Results_init t (rs1 ++ rs2)) = Return (k1 + k2)%Z.
Proof.
  exists (count_status 200 298 rs1), (count_status 200 298 rs2).
  rewrite !successful_requests_count, count_status_app. repeat split.
Qed.

Lemma is_max_time_unique (rs : list request) (a b : Qc) :
  is_max_time rs a -> is_max_time rs b -> a = b.
Proof.
  intros [Ia Fa] [Ib Fb]. rewrite Forall_forall in Fa, Fb.
  apply in_map_iff in Ia. destruct Ia as (ra & <- & Ia).
  apply in_map_iff in Ib. destruct Ib as (rb & <- & Ib).
  apply Qcle_antisym; auto.
Qed.

Lemma is_min_time_unique (rs : list request) (a b : Qc) :
  is_min_time rs a -> is_min_time rs b -> a = b.
Proof.
  intros [Ia Fa] [Ib Fb]. rewrite Forall_forall in Fa, Fb.
  apply in_map_iff in Ia. destruct Ia as (ra & <- & Ia).
  apply in_map_iff in Ib. destruct Ib as (rb & <- & Ib).
  apply Qcle_antisym; auto.
Qed.

Lemma larger_cases (a b : Qc) :
  (larger a b = a \/ larger a b = b) /\
  (a <= larger a b)%Qc /\ (b <= larger a b)%Qc.
Proof.
  unfold larger. destruct (Py.ltb a b) eqn:E.
  - apply ltb_lt in E. repeat split; auto using Qclt_le_weak, Qcle_refl.
  - apply ltb_ge in E. repeat split; auto using Qcle_refl.
Qed.

Lemma smaller_cases (a b : Qc) :
  (smaller a b = a \/ smaller a b = b) /\
  (smaller a b <= a)%Qc /\ (smaller a b <= b)%Qc.
Proof.
  unfold smaller. destruct (Py.ltb b a) eqn:E.
  - apply ltb_lt in E. repeat split; auto using Qclt_le_weak, Qcle_refl.
  - apply ltb_ge in E. repeat split; auto using Qcle_refl.
Qed.

Lemma is_max_time_app (l1 l2 : list request) (a b : Qc) :
  is_max_time l1 a -> is_max_time l2 b -> is_max_time (l1 ++ l2) (larger a b).
Proof.
  intros [Ia Fa] [Ib Fb].
  destruct (larger_cases a b) as (C & La & Lb). split.
  - rewrite map_app. apply in_or_app. destruct C as [-> | ->]; auto.
  - apply Forall_app. split.
    + apply Forall_impl with (2 := Fa). intros r Hr.
      exact (Qcle_trans _ _ _ Hr La).
    + apply Forall_impl with (2 := Fb). intros r Hr.
      exact (Qcle_trans _ _ _ Hr Lb).
Qed.

Lemma is_min_time_app (l1 l2 : list request) (a b : Qc) :
  is_min_time l1 a -> is_min_time l2 b -> is_min_time (l1 ++ l2) (smaller a b).
Proof.
  intros [Ia Fa] [Ib Fb].
  destruct (smaller_cases a b) as (C & La & Lb). split.
  - rewrite map_app. apply in_or_app. destruct C as [-> | ->]; auto.
  - apply Forall_app. split.
    + apply Forall_impl with (2 := Fa). intros r Hr.
      exact (Qcle_trans _ _ _ La Hr).
    + apply Forall_impl with (2 := Fb). intros r Hr.
      exact (Qcle_trans _ _ _ Lb Hr).
Qed.

(** X8.  Over two non-empty batches put together, [slowest()] is the larger
    of the two batches' slowest times and [fastest()] the smaller of their
    fastest times. *)
Theorem merged_batches_extremes (t t1 t2 : Qc) (rs1 rs2 : list request) :
  rs1 <> [] -> rs2 <> [] ->
  exists s1 s2 f1 f2 : Qc,
    slowest (Results_init t1 rs1) = Return s1 /\
    slowest (Results_init t2 rs2) = Return s2 /\
    slowest (Results_init t (rs1 ++ rs2)) = Return (larger s1 s2) /\
    fastest (Results_init t1 rs1) = Return f1 /\
    fastest (Results_init t2 rs2) = Return f2 /\
    fastest (Results_init t (rs1 ++ rs2)) = Return (smaller f1 f2).
Proof.
  intros N1 N2.
  assert (N : rs1 ++ rs2 <> [])
    by (intro E; apply app_eq_nil in E; destruct E; contradiction).
  destruct (slowest_max t1 N1) as (? & a1 & _ & Es1 & M1).
  destruct (slowest_max t2 N2) as (? & a2 & _ & Es2 & M2).
  destruct (slowest_max t N) as (? & a & _ & Es & M).
  destruct (fastest_min t1 N1) as (b1 & ? & _ & Ef1 & m1).
  destruct (fastest_min t2 N2) as (b2 & ? & _ & Ef2 & m2).
  destruct (fastest_min t N) as (b & ? & _ & Ef & m).
  exists (request_time a1), (request_time a2),
         (request_time b1), (request_time b2).
  rewrite Es1, Es2, Es, Ef1, Ef2, Ef.
  rewrite (is_max_time_unique M (is_max_time_app M1 M2)).
  rewrite (is_min_time_unique m (is_min_time_app m1 m2)).
  repeat split.
Qed.

Lemma merged_batches_extremes_witness :
  doc_requests <> [] /\ [mkRequest 200 (dec 4 10)] <> [] /\
  exists s1 s2 f1 f2 : Qc,
    slowest doc_results = Return s1 /\
    slowest (Results_init (dec 1 1) [mkRequest 200 (dec 4 10)]) = Return s2 /\
    slowest (Results_init (dec 35 10)
               (doc_requests ++ [mkRequest 200 (dec 4 10)]))
      = Return (larger s1 s2) /\
    fastest doc_results = Return f1 /\
    fastest (Results_init (dec 1 1) [mkRequest 200 (dec 4 10)]) = Return f2 /\
    fastest (Results_init (dec 35 10)
               (doc_requests ++ [mkRequest 200 (dec 4 10)]))
      = Return (smaller f1 f2).
Proof.
  split; [discriminate|]. split; [discriminate|].
  apply (@merged_batches_extremes (dec 35 10) (dec 106 10) (dec 1 1)
           doc_requests [mkRequest 200 (dec 4 10)]); discriminate.
Defined.

(** ** Latencies that are not negative *)

Lemma total_latency_nonneg (rs : list request) :
  Forall (fun r => 0 <= request_time r)%Qc rs -> (0 <= total_latency rs)%Qc.
Proof.
  induction 1 as [|r rs Hr _ IH]; cbn [total_latency].
  - apply Qcle_refl.
  - rewrite <- (Qcplus_0_l 0). now apply Qcplus_le_compat.
Qed.

Lemma total_latency_ge_each (rs : list request) (m : Qc) :
  Forall (fun r => 0 <= request_time r)%Qc rs ->
  In m (map request_time rs) -> (m <= total_latency rs)%Qc.
Proof.
  induction 1 as [|r rs Hr Hrs IH]; cbn [map total_latency]; [intros []|].
  intros [<- | I].
  - rewrite <- (Qcplus_0_r (request_time r)) at 1.
    apply Qcplus_le_compat; [apply Qcle_refl | now apply total_latency_nonneg].
  - rewrite <- (Qcplus_0_l m).
    apply Qcplus_le_compat; [exact Hr | now apply IH].
Qed.

(** X9.  When no request time is negative and there is at least one
    request, [fastest()] is not negative and [slowest()] is at most
    [requests_total_time()]. *)
Theorem nonnegative_latencies (t : Qc) (rs : list request) :
  rs <> [] ->
  Forall (fun r => 0 <= request_time r)%Qc rs ->
  exists f s x : Qc,
    fastest (Results_init t rs) = Return f /\
    slowest (Results_init t rs) = Return s /\
    requests_total_time (Results_init t rs) = Return x /\
    (0 <= f)%Qc /\ (s <= x)%Qc.
Proof.
  intros N P.
  destruct (fastest_min t N) as (rf & ? & _ & Ef & If & _).
  destruct (slowest_max t N) as (? & rl & _ & Es & Is & _).
  exists (request_time rf), (request_time rl), (total_latency rs).
  split; [exact Ef|]. split; [exact Es|].
  split; [apply requests_total_time_sum|]. split.
  - apply in_map_iff in If. destruct If as (r & <- & Ir).
    rewrite Forall_forall in P. now apply P.
  - now apply total_latency_ge_each.
Qed.

Lemma nonnegative_latencies_witness :
  doc_requests <> [] /\
  Forall (fun r => 0 <= request_time r)%Qc doc_requests /\
  exists f s x : Qc,
    fastest doc_results = Return f /\
    slowest doc_results = Return s /\
    requests_total_time doc_results = Return x /\
    (0 <= f)%Qc /\ (s <= x)%Qc.
Proof.
  assert (P : Forall (fun r => 0 <= request_time r)%Qc doc_requests)
    by (repeat constructor; discriminate).
  split; [discriminate|]. split; [exact P|].
  apply (@nonnegative_latencies (dec 106 10) doc_requests);
    [discriminate | exact P].
Defined.

(** ** What each query depends on *)

Lemma count_status_codes (lo hi : Z) (l1 l2 : list request) :
  map status_code l1 = map status_code l2 ->
  count_status lo hi l1 = count_status lo hi l2.
Proof.
  revert l2. induction l1 as [|a l1 IH]; intros [|b l2] E;
    try discriminate E; [reflexivity|].
  cbn [map] in E. injection E as Eh Et.
  cbn [count_status]. now rewrite Eh, (IH l2 Et).
Qed.

Lemma init_times_of_times (t : Qc) (rs : list request) :
  map request_time (requests (Results_init t rs))
  = Py.sorted (fun q => q) (map request_time rs).
Proof. apply sorted_map_key. Qed.

(** X10.  The four latency queries read the request times alone: two lists
    of requests with the same request times in the same positions give the
    same [slowest()], [fastest()], [average_time()] and
    [requests_total_time()], whatever their status codes and whatever the
    two [total_time]s; a failed request weighs like a successful one. *)
Theorem latency_queries_ignore_status (t1 t2 : Qc) (rs1 rs2 : list request) :
  map request_time rs1 = map request_time rs2 ->
  slowest (Results_init t1 rs1) = slowest (Results_init t2 rs2) /\
  fastest (Results_init t1 rs1) = fastest (Results_init t2 rs2) /\
  average_time (Results_init t1 rs1) = average_time (Results_init t2 rs2) /\
  requests_total_time (Results_init t1 rs1)
    = requests_total_time (Results_init t2 rs2).
Proof.
  intro E.
  assert (E' : map request_time (requests (Results_init t1 rs1))
               = map request_time (requests (Results_init t2 rs2)))
    by now rewrite !init_times_of_times, E.
  repeat split.
  - now rewrite !slowest_times, E'.
  - now rewrite !fastest_times, E'.
  - unfold average_time. now rewrite E'.
  - unfold requests_total_time. now rewrite E'.
Qed.

Lemma latency_queries_ignore_status_witness :
  map request_time doc_requests
  = map request_time (map (fun r => mkRequest 404 (request_time r))
                          doc_requests) /\
  slowest doc_results
  = slowest (Results_init (dec 1 1)
               (map (fun r => mkRequest 404 (request_time r)) doc_requests)) /\
  fastest doc_results
  = fastest (Results_init (dec 1 1)
               (map (fun r => mkRequest 404 (request_time r)) doc_requests)) /\
  average_time doc_results
  = average_time (Results_init (dec 1 1)
               (map (fun r => mkRequest 404 (request_time r)) doc_requests)) /\
  requests_total_time doc_results
  = requests_total_time (Results_init (dec 1 1)
               (map (fun r => mkRequest 404 (request_time r)) doc_requests)).
Proof.
  split; [reflexivity|].
  apply (@latency_queries_ignore_status (dec 106 10) (dec 1 1) doc_requests
           (map (fun r => mkRequest 404 (request_time r)) doc_requests)).
  reflexivity.
Defined.

(** X11.  [successful_requests()] reads the status codes alone: two lists of
    requests with the same status codes in the same positions give the same
    count, whatever their request times and whatever the two
    [total_time]s. *)
Theorem successful_requests_ignores_times
        (t1 t2 : Qc) (rs1 rs2 : list request) :
  map status_code rs1 = map status_code rs2 ->
  successful_requests (Results_init t1 rs1)
  = successful_requests (Results_init t2 rs2).
Proof.
  intro E. rewrite !successful_requests_count.
  now rewrite (count_status_codes 200 298 _ _ E).
Qed.

Lemma successful_requests_ignores_times_witness :
  map status_code doc_requests
  = map status_code (map (fun r => mkRequest (status_code r) (dec 7 1))
                         doc_requests) /\
  successful_requests doc_results
  = successful_requests
      (Results_init (dec 1 1)
         (map (fun r => mkRequest (status_code r) (dec 7 1)) doc_requests)).
Proof.
  split; [reflexivity|].
  apply (@successful_requests_ignores_times (dec 106 10) (dec 1 1)
           doc_requests
           (map (fun r => mkRequest (status_code r) (dec 7 1)) doc_requests)).
  reflexivity.
Defined.

(** X12.  With a single request, [slowest()], [fastest()],
    [average_time()] and [requests_total_time()] all return that request's
    time. *)
Theorem single_request_latencies (t : Qc) (r : request) :
  slowest (Results_init t [r]) = Return (request_time r) /\
  fastest (Results_init t [r]) = Return (request_time r) /\
  average_time (Results_init t [r]) = Return (request_time r) /\
  requests_total_time (Results_init t [r]) = Return (request_time r).
Proof.
  assert (S : total_latency [r] = request_time r)
    by (cbn [total_latency]; apply Qcplus_0_r).
  split; [reflexivity|]. split; [reflexivity|]. split.
  - rewrite average_time_mean by discriminate.
    unfold mean_latency. rewrite S. f_equal.
    rewrite <- (Qcmult_1_r (request_time r)) at 1.
    apply Qcdiv_mult_l. discriminate.
  - now rewrite requests_total_time_sum, S.
Qed.

(** ** More on rounding and the two rates *)






Lemma rate_zero_count (t : Qc) : (Py.of_int 0 / t)%Qc = 0%Qc.
Proof. unfold Qcdiv. apply Qcmult_0_l. Qed.










(** X17.  With no requests and [total_time] not zero, both rates return 0;
    [successful_requests()] returns 0 with no requests whatever
    [total_time] is. *)
Theorem empty_rates_and_count (t : Qc) :
  t <> 0%Qc ->
  requests_per_minute (Results_init t []) = Return 0%Z /\
  requests_per_second (Results_init t []) = Return 0%Z /\
  successful_requests (Results_init t []) = Return 0%Z.
Proof.
  intro N. destruct (rates_nonzero [] N) as [Em Es].
  rewrite Em, Es. unfold per_minute_rate, per_second_rate.
  cbn [length Z.of_nat Z.mul]. rewrite rate_zero_count.
  repeat split.
Qed.

Lemma empty_rates_and_count_witness :
  dec (-2) 1 <> 0%Qc /\
  requests_per_minute (Results_init (dec (-2) 1) []) = Return 0%Z /\
  requests_per_second (Results_init (dec (-2) 1) []) = Return 0%Z /\
  successful_requests (Results_init (dec (-2) 1) []) = Return 0%Z.
Proof.
  split; [discriminate|].
  apply (@empty_rates_and_count (dec (-2) 1)). discriminate.
Defined.
